(** * PyLabware driver for the Radleys Carousel Connect hotplate

    A shallow embedding of [PyLabware/devices/radleys_RR91207.py]: the command
    table [RadleysCarouselConnectCommands] and the device class
    [RadleysCarouselConnect], followed by the properties of its operations.

    Python values are a small tagged union, exceptions are an explicit outcome
    and the calls a method makes to [self.send] and to [self.logger] are
    recorded in a [World] that every operation threads through. *)

From Stdlib Require Import ZArith QArith Bool List String Ascii Lia.
From Stdlib Require Import DecimalString.
Import ListNotations.

Local Open Scope string_scope.
Local Open Scope Z_scope.

(** ** Python values *)

(** The values the driver handles. A [float] is represented by the rational
    it denotes (every finite float is one); a bound method such as
    [self.get_status], taken without calling it, is a value of its own. *)
Inductive PyVal : Type :=
| PyNone
| PyBool (b : bool)
| PyInt (z : Z)
| PyFloat (q : Q)
| PyStr (s : string)
| PyMethod (qualname : string).

(** The type objects used in command descriptors ([int], [float], [str]). *)
Inductive PyType : Type := TInt | TFloat | TStr.

(** The exceptions that reach the driver. [PLConnectionError] and
    [PLDeviceCommandError] are the two the driver imports; [InvalidArgument]
    and [MalformedReply] are the failures of the dispatcher's argument check
    and of its reply decoding; [TypeError] and [KeyError] are the
    interpreter's own. *)
Inductive PyExn : Type :=
| PLConnectionError
| PLDeviceCommandError (msg : string)
| InvalidArgument
| MalformedReply
| TypeError
| KeyError (key : PyVal).

(** What evaluating an expression or a call gives. *)
Inductive Result (A : Type) : Type :=
| Returned (a : A)
| Raised (e : PyExn).
Arguments Returned {A} a.
Arguments Raised {A} e.

(** [except PLConnectionError] *)
Definition is_PLConnectionError (e : PyExn) : bool :=
  match e with PLConnectionError => true | _ => false end.

(** The numeric tower: [bool] is an [int], an [int] compares with a [float]
    by value. *)
Definition py_num (v : PyVal) : option Q :=
  match v with
  | PyBool b => Some (inject_Z (Z.b2z b))
  | PyInt z => Some (inject_Z z)
  | PyFloat q => Some q
  | _ => None
  end.

(** [a == b] *)
Definition py_eq (a b : PyVal) : bool :=
  match py_num a, py_num b with
  | Some x, Some y => Qeq_bool x y
  | _, _ =>
      match a, b with
      | PyNone, PyNone => true
      | PyStr s, PyStr t => String.eqb s t
      | PyMethod m, PyMethod n => String.eqb m n
      | _, _ => false
      end
  end.

(** [a != b] *)
Definition py_ne (a b : PyVal) : bool := negb (py_eq a b).

(** [a < b]: numbers by value, strings in lexicographic order, anything else
    is a [TypeError]. *)
Definition py_lt (a b : PyVal) : Result bool :=
  match py_num a, py_num b with
  | Some x, Some y => Returned (negb (Qle_bool y x))
  | _, _ =>
      match a, b with
      | PyStr s, PyStr t => Returned (String.ltb s t)
      | _, _ => Raised TypeError
      end
  end.

(** [a > b] *)
Definition py_gt (a b : PyVal) : Result bool := py_lt b a.

(** Truth value of an object, as [if] and [bool()] take it. *)
Definition py_truthy (v : PyVal) : bool :=
  match v with
  | PyNone => false
  | PyBool b => b
  | PyInt z => negb (Z.eqb z 0)
  | PyFloat q => negb (Qeq_bool q 0)
  | PyStr s => negb (String.eqb s "")
  | PyMethod _ => true
  end.

(** A [dict] literal, in insertion order. *)
Definition PyDict : Type := list (PyVal * PyVal).

(** [d[k]]: the value of the first key equal to [k], [KeyError] without one. *)
Fixpoint py_getitem (d : PyDict) (k : PyVal) : Result PyVal :=
  match d with
  | [] => Raised (KeyError k)
  | (k', v) :: d' => if py_eq k' k then Returned v else py_getitem d' k
  end.

(** ** Command descriptors *)

(** [parsers.slicer] is the only reply parser the table names. *)
Inductive Parser : Type := slicer.

(** The ["check"] entry of a descriptor. *)
Record Check : Type := { min : Z; max : Z }.

(** The ["reply"] entry of a descriptor; [None] in ["args"] is Python's
    [None] (an open end of the slice). *)
Record Reply : Type := {
  reply_type : PyType;
  reply_parser : option Parser;
  reply_args : list (option Z)
}.

(** One command definition: the dictionary with keys ["name"], ["type"],
    ["check"] and ["reply"], the last three optional. *)
Record Command : Type := {
  name : string;
  type : option PyType;
  check : option Check;
  reply : option Reply
}.

Definition sliced (t : PyType) (from : Z) : option Reply :=
  Some {| reply_type := t; reply_parser := Some slicer;
          reply_args := [Some from; None] |}.

Definition plain (t : PyType) : option Reply :=
  Some {| reply_type := t; reply_parser := None; reply_args := [] |}.

Module RadleysCarouselConnectCommands.

Definition DEFAULT_NAME : string := "Radleys Carousel Connect".

Definition TEMP_MODE : PyDict :=
  [(PyInt 0, PyStr "PRECISE"); (PyInt 1, PyStr "FAST")].

Definition RESET_MODE : PyDict :=
  [(PyInt 0, PyStr "ALL OFF"); (PyInt 1, PyStr "ALL ON")].

Definition STATUS : PyDict :=
  [(PyInt (-1), PyStr "REMOTE BLOCKED"); (PyInt 0, PyStr "MANUAL");
   (PyInt 1, PyStr "REMOTE START"); (PyInt 2, PyStr "REMOTE STOP")].

Definition SET_TEMP : Command :=
  {| name := "OUT_SP_1"; type := Some TInt;
     check := Some {| min := 20; max := 300 |}; reply := sliced TFloat 9 |}.
Definition SET_SPEED : Command :=
  {| name := "OUT_SP_3"; type := Some TFloat;
     check := Some {| min := 100; max := 1400 |}; reply := sliced TStr 9 |}.
Definition SET_RESET_MODE : Command :=
  {| name := "OUT_MODE_2"; type := Some TInt;
     check := Some {| min := 0; max := 1 |}; reply := sliced TStr 0 |}.
Definition SET_TEMP_MODE : Command :=
  {| name := "OUT_MODE_4"; type := Some TInt;
     check := Some {| min := 0; max := 1 |}; reply := sliced TStr 0 |}.
Definition START_HEAT : Command :=
  {| name := "START_1"; type := None; check := None; reply := plain TStr |}.
Definition START_STIR : Command :=
  {| name := "START_2"; type := None; check := None; reply := plain TStr |}.
Definition STOP_HEAT : Command :=
  {| name := "STOP_1"; type := None; check := None; reply := plain TStr |}.
Definition STOP_STIR : Command :=
  {| name := "STOP_2"; type := None; check := None; reply := plain TStr |}.
Definition RESET : Command :=
  {| name := "RESET"; type := None; check := None; reply := None |}.
Definition GET_PROBE_TEMP : Command :=
  {| name := "IN_PV_1"; type := None; check := None; reply := sliced TFloat 8 |}.
Definition GET_PROBE_SAFETY_TEMP : Command :=
  {| name := "IN_PV_2"; type := None; check := None; reply := sliced TFloat 8 |}.
Definition GET_HOTPLATE_TEMP : Command :=
  {| name := "IN_PV_3"; type := None; check := None; reply := sliced TFloat 8 |}.
Definition GET_HOTPLATE_SAFETY_TEMP : Command :=
  {| name := "IN_PV_4"; type := None; check := None; reply := sliced TFloat 8 |}.
Definition GET_STIR_SPEED : Command :=
  {| name := "IN_PV_5"; type := None; check := None; reply := sliced TFloat 8 |}.
Definition GET_SET_TEMP : Command :=
  {| name := "IN_SP_1"; type := None; check := None; reply := sliced TFloat 8 |}.
Definition GET_SET_TEMP_SAFETY_DELTA : Command :=
  {| name := "IN_SP_2"; type := None; check := None; reply := sliced TFloat 8 |}.
Definition GET_SET_MOTOR_SPEED : Command :=
  {| name := "IN_SP_3"; type := None; check := None; reply := sliced TFloat 8 |}.
Definition QUERY_TEMP_SENSOR_TYPE : Command :=
  {| name := "IN_MODE_1"; type := Some TInt; check := None; reply := sliced TInt 10 |}.
Definition QUERY_RESET_MODE : Command :=
  {| name := "IN_MODE_2"; type := Some TInt; check := None; reply := sliced TInt 10 |}.
Definition QUERY_TEMP_MODE : Command :=
  {| name := "IN_MODE_4"; type := Some TInt; check := None; reply := sliced TInt 10 |}.
Definition QUERY_STATUS : Command :=
  {| name := "STATUS"; type := Some TInt; check := None; reply := sliced TInt 7 |}.

Definition PROTOCOL_NEW : Command :=
  {| name := "PA_NEW"; type := None; check := None; reply := plain TStr |}.
Definition PROTOCOL_OLD : Command :=
  {| name := "PA_OLD"; type := None; check := None; reply := plain TStr |}.
Definition SOFTWARE_VERSION : Command :=
  {| name := "SW_VERS"; type := None; check := None; reply := plain TStr |}.
Definition CHECK_CONNECTION_ON : Command :=
  {| name := "CC_ON"; type := None; check := None; reply := plain TStr |}.
Definition CHECK_CONNECTION_OFF : Command :=
  {| name := "CC_OFF"; type := None; check := None; reply := plain TStr |}.

End RadleysCarouselConnectCommands.

(** ** The device object and its effects *)

(** The constants of [pyserial] the constructor uses. *)
Module serial.
Definition EIGHTBITS : Z := 8.
Definition PARITY_NONE : string := "N".
End serial.

Record ConnectionParameters : Type := {
  port : PyVal;
  address : option string;
  baudrate : Z;
  bytesize : Z;
  parity : string;
  encoding : string;
  force_7bit : bool
}.

(** The attributes of a [RadleysCarouselConnect] instance. [simulation] is
    kept by the base class; the other fields are set by [__init__]. *)
Record Device : Type := {
  device_name : string;
  connection_mode : string;
  connection_parameters : ConnectionParameters;
  simulation : bool;
  command_terminator : string;
  reply_terminator : string;
  args_delimiter : string
}.

Definition CRLF : string := String "013" (String "010" EmptyString).

(** [RadleysCarouselConnect.__init__]; [in_simulation] is the mode the base
    class is put in. *)
Definition init (device_name connection_mode : string)
    (address : option string) (port : PyVal) (in_simulation : bool) : Device :=
  {| device_name := device_name;
     connection_mode := connection_mode;
     connection_parameters :=
       {| port := port; address := address; baudrate := 9600;
          bytesize := serial.EIGHTBITS; parity := serial.PARITY_NONE;
          encoding := "utf_8"; force_7bit := true |};
     simulation := in_simulation;
     command_terminator := CRLF;
     reply_terminator := CRLF;
     args_delimiter := " " |}.

(** One call [self.send(cmd)] or [self.send(cmd, value)]. *)
Record Call : Type := { sent_cmd : Command; sent_value : option PyVal }.

Inductive Level : Type := INFO | ERROR.

(** What a method leaves behind: the calls it made to [send], oldest first,
    and the records it handed to [self.logger]. *)
Record World : Type := {
  calls : list Call;
  journal : list (Level * string)
}.

Definition idle_world : World := {| calls := []; journal := [] |}.

(** A computation that reads and extends the world and returns or raises. *)
Definition M (A : Type) : Type := World -> Result A * World.

Definition ret {A} (a : A) : M A := fun w => (Returned a, w).

Definition raise {A} (e : PyExn) : M A := fun w => (Raised e, w).

Definition bind {A B} (m : M A) (k : A -> M B) : M B :=
  fun w =>
    match m w with
    | (Returned a, w') => k a w'
    | (Raised e, w') => (Raised e, w')
    end.

Definition lift {A} (r : Result A) : M A := fun w => (r, w).

Declare Scope py_scope.
Delimit Scope py_scope with py.
Notation "x <- m ;; k" := (bind m (fun x => k))
  (at level 100, m at next level, right associativity) : py_scope.
Notation "m ;; k" := (bind m (fun _ => k))
  (at level 100, right associativity) : py_scope.
Local Open Scope py_scope.

(** [try: body except E: handler], where [catches] tells the instances of
    [E]. *)
Definition try_except {A} (body : M A) (catches : PyExn -> bool)
    (handler : M A) : M A :=
  fun w =>
    match body w with
    | (Raised e, w') => if catches e then handler w' else (Raised e, w')
    | done => done
    end.

(** How a block of statements ends: it runs off its end or it executes a
    [return]. *)
Inductive Flow : Type :=
| Fallthrough
| Return (v : PyVal).

Definition logger_log (l : Level) (msg : string) : M unit :=
  fun w => (Returned tt,
            {| calls := calls w; journal := journal w ++ [(l, msg)] |}).

Definition logger_info : string -> M unit := logger_log INFO.
Definition logger_error : string -> M unit := logger_log ERROR.

(** The outcome of one [send]: the base class's dispatcher and the device
    behind it decide it from the command, its argument and the calls made
    before. *)
Definition Dispatcher : Type :=
  list Call -> Command -> option PyVal -> Result PyVal.

(** Modelled from the spec: the decorator [in_simulation_device_returns] of
    the controllers module, which the driver only imports. In simulation mode
    the wrapped operation is not executed at all and the given value is
    substituted; otherwise the operation runs. *)
Definition in_simulation_device_returns (value : PyVal)
    (func : Device -> M PyVal) : Device -> M PyVal :=
  fun self => if simulation self then ret value else func self.

Module RadleysCarouselConnect.
Import RadleysCarouselConnectCommands.

Section Methods.

Variable dispatcher : Dispatcher.

(** [self.send(cmd, value)]: the call is recorded and its outcome is the
    dispatcher's. *)
Definition send (self : Device) (cmd : Command) (value : option PyVal)
  : M PyVal :=
  fun w =>
    (dispatcher (calls w) cmd value,
     {| calls := calls w ++ [{| sent_cmd := cmd; sent_value := value |}];
        journal := journal w |}).

(** The function under the decorator of [is_connected]. *)
Definition is_connected_body (self : Device) : M PyVal :=
  flow <- try_except
            (reply <- send self QUERY_STATUS None ;;
             if py_eq reply (PyInt (-1)) then
               (logger_error "Device connection blocked" ;;
                ret (Return (PyBool false)))
             else
               (below <- lift (py_lt reply (PyInt (-1))) ;;
                if (below : bool) then
                  (logger_error "Device error" ;;
                   ret (Return (PyBool false)))
                else ret Fallthrough))
            is_PLConnectionError
            (ret (Return (PyBool false))) ;;
  match flow with
  | Return v => ret v
  | Fallthrough => ret (PyBool true)
  end.

Definition is_connected : Device -> M PyVal :=
  in_simulation_device_returns (PyStr DEFAULT_NAME) is_connected_body.

(** [reply = self.get_status] takes the bound method and does not call
    it. *)
Definition is_idle (self : Device) : M PyVal :=
  let reply := PyMethod "RadleysCarouselConnect.get_status" in
  if py_ne reply (PyInt 1) then ret (PyBool false) else ret (PyBool true).

(** [3 > reply > -2] is [3 > reply and reply > -2], the second comparison
    made only when the first holds. *)
Definition get_status (self : Device) : M PyVal :=
  reply <- send self QUERY_STATUS None ;;
  above <- lift (py_gt (PyInt 3) reply) ;;
  inside <- (if (above : bool) then lift (py_gt reply (PyInt (-2)))
             else ret false) ;;
  reply <- (if (inside : bool) then lift (py_getitem STATUS reply)
            else ret (PyStr "ERROR")) ;;
  ret reply.

Definition check_errors (self : Device) : M PyVal := ret PyNone.

Definition clear_errors (self : Device) : M PyVal := ret PyNone.

Definition start_temperature_regulation (self : Device) : M PyVal :=
  send self START_HEAT None ;;
  logger_info "Started heating" ;;
  ret PyNone.

Definition stop_temperature_regulation (self : Device) : M PyVal :=
  send self STOP_HEAT None ;;
  ret PyNone.

Definition start_stirring (self : Device) : M PyVal :=
  send self START_STIR None ;;
  logger_info "Started stirring" ;;
  ret PyNone.

Definition stop_stirring (self : Device) : M PyVal :=
  send self STOP_STIR None ;;
  logger_info "Stopped stirring" ;;
  ret PyNone.

Definition set_speed (self : Device) (speed : PyVal) : M PyVal :=
  send self SET_SPEED (Some speed) ;;
  ret PyNone.

Definition get_speed (self : Device) : M PyVal :=
  send self GET_STIR_SPEED None.

Definition get_speed_setpoint (self : Device) : M PyVal :=
  send self GET_SET_MOTOR_SPEED None.

Definition set_temperature (self : Device) (temperature sensor : PyVal)
  : M PyVal :=
  send self SET_TEMP (Some temperature) ;;
  ret PyNone.

Definition get_temperature_setpoint (self : Device) (sensor : PyVal)
  : M PyVal :=
  send self GET_SET_TEMP None.

Definition get_temperature (self : Device) (sensor : PyVal) : M PyVal :=
  if py_eq sensor (PyInt 0) then send self GET_HOTPLATE_TEMP None
  else if py_eq sensor (PyInt 1) then send self GET_PROBE_TEMP None
  else raise (PLDeviceCommandError
    "Invalid sensor provided. Use 0 for hotplate or 1 for external probe").

Definition get_temperature_safety_delta (self : Device) : M PyVal :=
  send self GET_SET_TEMP_SAFETY_DELTA None ;;
  ret PyNone.

Definition get_sensor_type (self : Device) : M PyVal :=
  reply <- send self QUERY_TEMP_SENSOR_TYPE None ;;
  if py_eq reply (PyInt 0) then ret (PyStr "HOTPLATE (0)")
  else ret (PyStr "PROBE (1)").

Definition set_reset_mode (self : Device) (mode : PyVal) : M PyVal :=
  send self SET_RESET_MODE (Some mode) ;;
  ret PyNone.

Definition get_reset_mode (self : Device) : M PyVal :=
  reply <- send self QUERY_RESET_MODE None ;;
  lift (py_getitem RESET_MODE reply).

Definition set_heat_mode (self : Device) (mode : PyVal) : M PyVal :=
  send self SET_TEMP_MODE (Some mode) ;;
  ret PyNone.

Definition get_heat_mode (self : Device) : M PyVal :=
  reply <- send self QUERY_TEMP_MODE None ;;
  lift (py_getitem TEMP_MODE reply).

Definition reset (self : Device) : M PyVal :=
  send self RESET None ;;
  ret PyNone.

Definition set_connection_check_on (self : Device) : M PyVal :=
  send self CHECK_CONNECTION_ON None ;;
  ret PyNone.

Definition set_connection_check_off (self : Device) : M PyVal :=
  send self CHECK_CONNECTION_OFF None ;;
  ret PyNone.

(** [self.connection.open_connection()] belongs to the connection object:
    here it is its outcome, a return or an exception. *)
Variable open_connection : Result unit.

Definition initialize_device (self : Device) : M PyVal :=
  lift open_connection ;;
  send self PROTOCOL_NEW None ;;
  logger_info "Device initialised" ;;
  ret PyNone.

End Methods.

End RadleysCarouselConnect.

(** ** The dispatch pipeline *)

(** [str(z)] for an [int]. *)
Definition str_of_int (z : Z) : string := NilZero.string_of_int (Z.to_int z).

(** Modelled from the spec: the Validator of the dispatch pipeline, part of
    the base class and not of the driver. The check fails with
    [InvalidArgument] when the argument's type does not match the declared
    one, when the descriptor declares no argument at all, and when bounds are
    declared and the argument lies outside the inclusive range. *)
Definition has_type (t : PyType) (value : PyVal) : bool :=
  match t, value with
  | TInt, PyInt _ => true
  | TFloat, PyFloat _ => true
  | TStr, PyStr _ => true
  | _, _ => false
  end.

(** Modelled from the spec: the bounds test of the Validator,
    [min <= value <= max], both ends included. *)
Definition within (c : Check) (value : PyVal) : bool :=
  match py_num value with
  | Some x => Qle_bool (inject_Z (min c)) x && Qle_bool x (inject_Z (max c))
  | None => false
  end.

(** Modelled from the spec: the Validator (see [has_type]). *)
Definition validate (cmd : Command) (value : PyVal) : Result unit :=
  match type cmd with
  | None => Raised InvalidArgument
  | Some t =>
      if has_type t value then
        match check cmd with
        | None => Returned tt
        | Some c => if within c value then Returned tt
                    else Raised InvalidArgument
        end
      else Raised InvalidArgument
  end.

Section Pipeline.

(** [str()] of the values whose text is the interpreter's business (a
    [float], a method object); not fixed here. *)
Variable interpreter_str : PyVal -> string.

(** The connection: writing a frame and reading one reply line up to the
    terminator, each of which may fail. Both see the frames written so
    far. *)
Variable write : list string -> string -> Result unit.
Variable read_until : list string -> string -> Result string.

(** The reply decoder (parser and cast), which may fail with
    [MalformedReply]. *)
Variable decode : Reply -> string -> Result PyVal.

(** [str(value)] *)
Definition stringify (value : PyVal) : string :=
  match value with
  | PyInt z => str_of_int z
  | PyStr s => s
  | PyBool true => "True"
  | PyBool false => "False"
  | PyNone => "None"
  | PyFloat _ | PyMethod _ => interpreter_str value
  end.

(** Modelled from the spec: the encoder of the Frame Codec, part of the
    base class and not of the driver. The frame is the command's name,
    optionally followed by the argument delimiter and the stringified
    argument, followed by the command terminator. *)
Definition encode (self : Device) (cmd : Command) (value : option PyVal)
  : string :=
  name cmd
  ++ match value with
     | Some v => args_delimiter self ++ stringify v
     | None => ""
     end
  ++ command_terminator self.

(** Modelled from the spec: the Dispatcher [send] of the base class, not
    part of the driver. Validate when an argument is supplied, encode and
    write the frame, read one reply line, return nothing without a reply
    rule and the decoded reply otherwise. The state is the list of frames
    written to the connection. *)
Definition dispatch (self : Device) (cmd : Command) (value : option PyVal)
    (wire : list string) : Result PyVal * list string :=
  match match value with
        | Some v => validate cmd v
        | None => Returned tt
        end with
  | Raised e => (Raised e, wire)
  | Returned _ =>
      let frame := encode self cmd value in
      match write wire frame with
      | Raised e => (Raised e, wire)
      | Returned _ =>
          let wire' := (wire ++ [frame])%list in
          match read_until wire' (reply_terminator self) with
          | Raised e => (Raised e, wire')
          | Returned line =>
              match reply cmd with
              | None => (Returned PyNone, wire')
              | Some r => (decode r line, wire')
              end
          end
      end
  end.

End Pipeline.

(** ** Properties *)

Import RadleysCarouselConnect RadleysCarouselConnectCommands.

(** The world after one more call to [send]. *)
Definition after_send (w : World) (cmd : Command) (value : option PyVal)
  : World :=
  {| calls := calls w ++ [{| sent_cmd := cmd; sent_value := value |}];
     journal := journal w |}.

(** The world after one more record for the logger. *)
Definition after_log (w : World) (l : Level) (msg : string) : World :=
  {| calls := calls w; journal := journal w ++ [(l, msg)] |}.

(** A dispatcher whose every [send] has the same outcome. *)
Definition answering (outcome : Result PyVal) : Dispatcher :=
  fun _ _ _ => outcome.

(** A device on a serial port, and the same device in simulation mode. *)
Definition bench_device : Device :=
  init "hotplate" "serial" None (PyStr "COM3") false.

Definition simulated_device : Device :=
  init "hotplate" "serial" None (PyStr "COM3") true.

(** The command definitions of [RadleysCarouselConnectCommands], in the
    order of the class body. *)
Definition all_commands : list Command :=
  [SET_TEMP; SET_SPEED; SET_RESET_MODE; SET_TEMP_MODE; START_HEAT; START_STIR;
   STOP_HEAT; STOP_STIR; RESET; GET_PROBE_TEMP; GET_PROBE_SAFETY_TEMP;
   GET_HOTPLATE_TEMP; GET_HOTPLATE_SAFETY_TEMP; GET_STIR_SPEED; GET_SET_TEMP;
   GET_SET_TEMP_SAFETY_DELTA; GET_SET_MOTOR_SPEED; QUERY_TEMP_SENSOR_TYPE;
   QUERY_RESET_MODE; QUERY_TEMP_MODE; QUERY_STATUS; PROTOCOL_NEW; PROTOCOL_OLD;
   SOFTWARE_VERSION; CHECK_CONNECTION_ON; CHECK_CONNECTION_OFF].

(** One call of a method of the device object, with its arguments. *)
Inductive Operation : Type :=
| Is_connected
| Is_idle
| Get_status
| Check_errors
| Clear_errors
| Start_temperature_regulation
| Stop_temperature_regulation
| Start_stirring
| Stop_stirring
| Set_speed (speed : PyVal)
| Get_speed
| Get_speed_setpoint
| Set_temperature (temperature sensor : PyVal)
| Get_temperature_setpoint (sensor : PyVal)
| Get_temperature (sensor : PyVal)
| Get_temperature_safety_delta
| Get_sensor_type
| Set_reset_mode (mode : PyVal)
| Get_reset_mode
| Set_heat_mode (mode : PyVal)
| Get_heat_mode
| Do_reset
| Set_connection_check_on
| Set_connection_check_off.

Definition perform (d : Dispatcher) (self : Device) (op : Operation)
  : M PyVal :=
  match op with
  | Is_connected => is_connected d self
  | Is_idle => is_idle self
  | Get_status => get_status d self
  | Check_errors => check_errors self
  | Clear_errors => clear_errors self
  | Start_temperature_regulation => start_temperature_regulation d self
  | Stop_temperature_regulation => stop_temperature_regulation d self
  | Start_stirring => start_stirring d self
  | Stop_stirring => stop_stirring d self
  | Set_speed speed => set_speed d self speed
  | Get_speed => get_speed d self
  | Get_speed_setpoint => get_speed_setpoint d self
  | Set_temperature temperature sensor =>
      set_temperature d self temperature sensor
  | Get_temperature_setpoint sensor => get_temperature_setpoint d self sensor
  | Get_temperature sensor => get_temperature d self sensor
  | Get_temperature_safety_delta => get_temperature_safety_delta d self
  | Get_sensor_type => get_sensor_type d self
  | Set_reset_mode mode => set_reset_mode d self mode
  | Get_reset_mode => get_reset_mode d self
  | Set_heat_mode mode => set_heat_mode d self mode
  | Get_heat_mode => get_heat_mode d self
  | Do_reset => reset d self
  | Set_connection_check_on => set_connection_check_on d self
  | Set_connection_check_off => set_connection_check_off d self
  end.

(** The methods without a [return] statement of their own. *)
Definition is_procedure (op : Operation) : bool :=
  match op with
  | Check_errors | Clear_errors
  | Start_temperature_regulation | Stop_temperature_regulation
  | Start_stirring | Stop_stirring
  | Set_speed _ | Set_temperature _ _ | Get_temperature_safety_delta
  | Set_reset_mode _ | Set_heat_mode _ | Do_reset
  | Set_connection_check_on | Set_connection_check_off => true
  | _ => false
  end.

(** A caller that invokes the methods one after the other and keeps their
    results; an exception ends it. *)
Fixpoint run_all (d : Dispatcher) (self : Device) (ops : list Operation)
  : M (list PyVal) :=
  match ops with
  | [] => ret []
  | op :: rest =>
      v <- perform d self op ;;
      vs <- run_all d self rest ;;
      ret (v :: vs)
  end.

(** A call the command table and its declarations allow: the command is one
    of the table, and a value is sent only to a command that declares a type
    and bounds for it. *)
Definition well_formed_call (c : Call) : Prop :=
  In (sent_cmd c) all_commands /\
  (sent_value c <> None ->
   type (sent_cmd c) <> None /\ check (sent_cmd c) <> None).

(** A computation that only extends the world: it adds at most [n] calls to
    [send], each satisfying [P], and at most [m] log records, and keeps what
    was there. *)
Definition Traced {A} (P : Call -> Prop) (n m : nat) (c : M A) : Prop :=
  forall w, exists cs js,
    calls (snd (c w)) = (calls w ++ cs)%list /\
    journal (snd (c w)) = (journal w ++ js)%list /\
    (List.length cs <= n)%nat /\ (List.length js <= m)%nat /\ Forall P cs.

(** *** Comparisons of integers *)

Lemma Qle_bool_inject_Z (a b : Z) :
  Qle_bool (inject_Z a) (inject_Z b) = (a <=? b).
Proof. unfold Qle_bool, inject_Z; cbn [Qnum Qden]. now rewrite !Z.mul_1_r. Qed.

Lemma Qeq_bool_inject_Z (a b : Z) :
  Qeq_bool (inject_Z a) (inject_Z b) = (a =? b)%Z.
Proof.
  unfold Qeq_bool, inject_Z; cbn [Qnum Qden]. rewrite !Z.mul_1_r.
  destruct (Z.eqb_spec a b) as [->|Hne].
  - destruct (Z.eq_dec b b); [reflexivity | contradiction].
  - destruct (Z.eq_dec a b); [contradiction | reflexivity].
Qed.

Lemma py_eq_int (a b : Z) : py_eq (PyInt a) (PyInt b) = (a =? b)%Z.
Proof. unfold py_eq; cbn [py_num]. apply Qeq_bool_inject_Z. Qed.

Lemma py_lt_int (a b : Z) : py_lt (PyInt a) (PyInt b) = Returned (a <? b).
Proof.
  unfold py_lt; cbn [py_num]. now rewrite Qle_bool_inject_Z, Z.ltb_antisym.
Qed.

Lemma py_gt_int (a b : Z) : py_gt (PyInt a) (PyInt b) = Returned (b <? a).
Proof. apply py_lt_int. Qed.

(** *** Evaluation of [send] *)

Lemma send_eq (d : Dispatcher) self cmd value w :
  send d self cmd value w = (d (calls w) cmd value, after_send w cmd value).
Proof. reflexivity. Qed.

Lemma bind_send {B} (d : Dispatcher) self cmd value (k : PyVal -> M B) w :
  bind (send d self cmd value) k w =
  match d (calls w) cmd value with
  | Returned v => k v (after_send w cmd value)
  | Raised e => (Raised e, after_send w cmd value)
  end.
Proof. unfold bind; rewrite send_eq. now destruct (d (calls w) cmd value). Qed.

(** *** Status decoding *)

(** On an integer reply [get_status] looks the reply up when it lies strictly
    between [-2] and [3] and answers ["ERROR"] otherwise. *)
Lemma get_status_int (d : Dispatcher) self w r :
  d (calls w) QUERY_STATUS None = Returned (PyInt r) ->
  get_status d self w =
  ((if (r <? 3) && (-2 <? r) then py_getitem STATUS (PyInt r)
    else Returned (PyStr "ERROR")),
   after_send w QUERY_STATUS None).
Proof.
  intros Hd. unfold get_status. rewrite bind_send, Hd.
  unfold bind, lift, ret. rewrite py_gt_int.
  destruct (r <? 3); cbn [andb].
  - rewrite py_gt_int. destruct (-2 <? r).
    + now destruct (py_getitem STATUS (PyInt r)).
    + reflexivity.
  - reflexivity.
Qed.

(** Whatever [send] raises, [get_status] raises too. *)
Lemma get_status_raised (d : Dispatcher) self w e :
  d (calls w) QUERY_STATUS None = Raised e ->
  get_status d self w = (Raised e, after_send w QUERY_STATUS None).
Proof. intros Hd. unfold get_status. now rewrite bind_send, Hd. Qed.

Lemma STATUS_lookup (r : Z) :
  -2 < r < 3 ->
  py_getitem STATUS (PyInt r) =
  Returned (PyStr (if r =? -1 then "REMOTE BLOCKED"
                   else if r =? 0 then "MANUAL"
                   else if r =? 1 then "REMOTE START"
                   else "REMOTE STOP"))%Z.
Proof.
  intros Hr.
  assert (r = -1 \/ r = 0 \/ r = 1 \/ r = 2) as [-> | [-> | [-> | ->]]] by lia;
    reflexivity.
Qed.

(** *** [is_idle] and [get_status] *)

(** C1 (the code departs from the claim): the claim makes [is_idle] true
    exactly when the status code is [1]. The method compares the bound method
    [self.get_status], which it never calls, with [1]: for every device and
    every world it returns [False] and sends nothing. *)
Theorem is_idle_always_false : forall (self : Device) (w : World),
  is_idle self w = (Returned (PyBool false), w).
Proof. intros self w. reflexivity. Qed.

(** A device whose status reply is [1]: [get_status] reports
    ["REMOTE START"], [is_idle] answers [False]. *)
Example remote_start_is_not_idle :
  fst (get_status (answering (Returned (PyInt 1))) bench_device idle_world)
    = Returned (PyStr "REMOTE START")
  /\ is_idle bench_device idle_world = (Returned (PyBool false), idle_world).
Proof. split; reflexivity. Qed.

(** C2, as stated, fails: when [send] raises [PLConnectionError],
    [get_status] raises it too instead of answering ["ERROR"]. *)
Lemma get_status_raises_when_connection_lost :
  get_status (answering (Raised PLConnectionError)) bench_device idle_world
    = (Raised PLConnectionError, after_send idle_world QUERY_STATUS None)
  /\ fst (get_status (answering (Raised PLConnectionError)) bench_device
            idle_world) <> Returned (PyStr "ERROR").
Proof. split; [reflexivity | discriminate]. Qed.

(** C2 (amended): [get_status] does not raise on an integer status reply,
    whatever its value: it returns a string, which is ["ERROR"] for a value
    out of range. It has no handler of its own: an exception raised by
    [send], a connection error included, is raised by [get_status]. *)
Theorem get_status_raises_what_send_raises :
  forall (d : Dispatcher) (self : Device) (w : World),
    (forall r, d (calls w) QUERY_STATUS None = Returned (PyInt r) ->
       exists s,
         get_status d self w
           = (Returned (PyStr s), after_send w QUERY_STATUS None)
         /\ (r <= -2 \/ 3 <= r -> s = "ERROR")) /\
    (forall e, d (calls w) QUERY_STATUS None = Raised e ->
       get_status d self w = (Raised e, after_send w QUERY_STATUS None)).
Proof.
  intros d self w. split.
  - intros r Hd. rewrite (get_status_int d self w r Hd).
    destruct (Z.ltb_spec r 3) as [Hlt|Hge]; cbn [andb].
    + destruct (Z.ltb_spec (-2) r) as [Hgt|Hle].
      * rewrite STATUS_lookup by lia. eexists; split; [reflexivity | lia].
      * eexists; split; [reflexivity | reflexivity].
    + eexists; split; [reflexivity | reflexivity].
  - intros e Hd. now apply get_status_raised.
Qed.

Lemma get_status_raises_what_send_raises_witness :
  answering (Raised PLConnectionError) (calls idle_world) QUERY_STATUS None
    = Raised PLConnectionError
  /\ get_status (answering (Raised PLConnectionError)) bench_device idle_world
       = (Raised PLConnectionError, after_send idle_world QUERY_STATUS None).
Proof.
  split; [reflexivity |].
  apply (proj2 (get_status_raises_what_send_raises
                  (answering (Raised PLConnectionError)) bench_device
                  idle_world) PLConnectionError).
  reflexivity.
Defined.

(** C3: for every integer reply [r] to the STATUS query, [get_status]
    returns ["REMOTE BLOCKED"] for [-1], ["MANUAL"] for [0], ["REMOTE START"]
    for [1], ["REMOTE STOP"] for [2], and ["ERROR"] for every [r <= -2] and
    every [r >= 3]; it makes that one call to [send]. *)
Theorem get_status_decodes :
  forall (d : Dispatcher) (self : Device) (w : World) (r : Z),
    d (calls w) QUERY_STATUS None = Returned (PyInt r) ->
    snd (get_status d self w) = after_send w QUERY_STATUS None /\
    (r = -1 ->
     fst (get_status d self w) = Returned (PyStr "REMOTE BLOCKED")) /\
    (r = 0 -> fst (get_status d self w) = Returned (PyStr "MANUAL")) /\
    (r = 1 -> fst (get_status d self w) = Returned (PyStr "REMOTE START")) /\
    (r = 2 -> fst (get_status d self w) = Returned (PyStr "REMOTE STOP")) /\
    (r <= -2 \/ 3 <= r ->
     fst (get_status d self w) = Returned (PyStr "ERROR")).
Proof.
  intros d self w r Hd. rewrite (get_status_int d self w r Hd). cbn [fst snd].
  split; [reflexivity |].
  repeat split; try (intros ->; reflexivity).
  intros Hout.
  destruct (Z.ltb_spec r 3); destruct (Z.ltb_spec (-2) r);
    cbn [andb]; solve [reflexivity | lia].
Qed.

Lemma get_status_decodes_witness :
  answering (Returned (PyInt 3)) (calls idle_world) QUERY_STATUS None
    = Returned (PyInt 3)
  /\ fst (get_status (answering (Returned (PyInt 3))) bench_device idle_world)
       = Returned (PyStr "ERROR").
Proof.
  split; [reflexivity |].
  apply (get_status_decodes (answering (Returned (PyInt 3))) bench_device
           idle_world 3); [reflexivity | right; lia].
Defined.

(** *** [is_connected] *)

(** What the body of [is_connected] does with each outcome of [send]. *)
Lemma is_connected_body_eq (d : Dispatcher) self w :
  is_connected_body d self w =
  let sent := after_send w QUERY_STATUS None in
  match d (calls w) QUERY_STATUS None with
  | Raised e =>
      if is_PLConnectionError e then (Returned (PyBool false), sent)
      else (Raised e, sent)
  | Returned reply =>
      if py_eq reply (PyInt (-1)) then
        (Returned (PyBool false),
         after_log sent ERROR "Device connection blocked")
      else
        match py_lt reply (PyInt (-1)) with
        | Returned true =>
            (Returned (PyBool false), after_log sent ERROR "Device error")
        | Returned false => (Returned (PyBool true), sent)
        | Raised e =>
            if is_PLConnectionError e then (Returned (PyBool false), sent)
            else (Raised e, sent)
        end
  end.
Proof.
  unfold is_connected_body, bind at 1, try_except. rewrite bind_send.
  destruct (d (calls w) QUERY_STATUS None) as [reply|e]; cbn zeta.
  - destruct (py_eq reply (PyInt (-1))); [reflexivity |].
    unfold bind at 1, lift.
    destruct (py_lt reply (PyInt (-1))) as [[|]|e]; try reflexivity.
    now destruct (is_PLConnectionError e).
  - now destruct (is_PLConnectionError e).
Qed.

Lemma is_connected_real (d : Dispatcher) self w :
  simulation self = false ->
  is_connected d self w = is_connected_body d self w.
Proof.
  intros Hsim. unfold is_connected, in_simulation_device_returns.
  now rewrite Hsim.
Qed.

(** C4, as stated, fails: [is_connected] can raise. Its handler names
    [PLConnectionError] only, so a reply that cannot be decoded leaves it as
    the exception [send] raised. *)
Lemma is_connected_raises_on_malformed_reply :
  is_connected (answering (Raised MalformedReply)) bench_device idle_world
    = (Raised MalformedReply, after_send idle_world QUERY_STATUS None).
Proof. reflexivity. Qed.

(** C4 (amended): outside simulation mode [is_connected] sends one STATUS
    query. It returns [False] when [send] raises a connection error, [False]
    (after logging an error) when the integer reply is [-1] or less than
    [-1], and [True] for every other integer reply; in none of these cases
    does it raise. An exception of [send] that is not a connection error is
    not handled and is raised by [is_connected]. *)
Theorem is_connected_outcome :
  forall (d : Dispatcher) (self : Device) (w : World),
    simulation self = false ->
    let sent := after_send w QUERY_STATUS None in
    (forall e, d (calls w) QUERY_STATUS None = Raised e ->
       is_PLConnectionError e = true ->
       is_connected d self w = (Returned (PyBool false), sent)) /\
    (forall r, d (calls w) QUERY_STATUS None = Returned (PyInt r) ->
       r = -1 ->
       is_connected d self w
         = (Returned (PyBool false),
            after_log sent ERROR "Device connection blocked")) /\
    (forall r, d (calls w) QUERY_STATUS None = Returned (PyInt r) ->
       r < -1 ->
       is_connected d self w
         = (Returned (PyBool false), after_log sent ERROR "Device error")) /\
    (forall r, d (calls w) QUERY_STATUS None = Returned (PyInt r) ->
       -1 < r ->
       is_connected d self w = (Returned (PyBool true), sent)) /\
    (forall e, d (calls w) QUERY_STATUS None = Raised e ->
       is_PLConnectionError e = false ->
       is_connected d self w = (Raised e, sent)).
Proof.
  intros d self w Hsim sent.
  rewrite (is_connected_real d self w Hsim), is_connected_body_eq.
  fold sent. cbn zeta.
  repeat split.
  - intros e -> ->. reflexivity.
  - intros r -> ->. reflexivity.
  - intros r -> Hr. rewrite py_eq_int, py_lt_int.
    destruct (Z.eqb_spec r (-1)); [lia |].
    destruct (Z.ltb_spec r (-1)); [reflexivity | lia].
  - intros r -> Hr. rewrite py_eq_int, py_lt_int.
    destruct (Z.eqb_spec r (-1)); [lia |].
    destruct (Z.ltb_spec r (-1)); [lia | reflexivity].
  - intros e -> ->. reflexivity.
Qed.

Lemma is_connected_outcome_witness :
  simulation bench_device = false
  /\ answering (Raised PLConnectionError) (calls idle_world) QUERY_STATUS None
       = Raised PLConnectionError
  /\ is_PLConnectionError PLConnectionError = true
  /\ is_connected (answering (Raised PLConnectionError)) bench_device
       idle_world
       = (Returned (PyBool false), after_send idle_world QUERY_STATUS None).
Proof.
  split; [reflexivity |]. split; [reflexivity |]. split; [reflexivity |].
  apply (proj1 (is_connected_outcome (answering (Raised PLConnectionError))
                  bench_device idle_world eq_refl) PLConnectionError);
    reflexivity.
Defined.

(** *** [get_temperature] *)

(** A value equal to [1] is not equal to [0]. *)
Lemma py_eq_one_not_zero (s : PyVal) :
  py_eq s (PyInt 1) = true -> py_eq s (PyInt 0) = false.
Proof.
  unfold py_eq; cbn [py_num].
  destruct (py_num s) as [x|].
  - intros H1. apply Qeq_bool_iff in H1.
    destruct (Qeq_bool x (inject_Z 0)) eqn:H0; [| reflexivity].
    apply Qeq_bool_iff in H0. rewrite H1 in H0. discriminate H0.
  - destruct s; intros; reflexivity.
Qed.

(** C5: [get_temperature(sensor)] sends the hotplate-temperature command
    when [sensor == 0] and the probe-temperature command when [sensor == 1],
    returning what [send] gives; for every other value it raises
    [PLDeviceCommandError] and sends nothing. *)
Theorem get_temperature_by_sensor :
  forall (d : Dispatcher) (self : Device) (sensor : PyVal) (w : World),
    (py_eq sensor (PyInt 0) = true ->
     get_temperature d self sensor w
       = (d (calls w) GET_HOTPLATE_TEMP None,
          after_send w GET_HOTPLATE_TEMP None)) /\
    (py_eq sensor (PyInt 1) = true ->
     get_temperature d self sensor w
       = (d (calls w) GET_PROBE_TEMP None,
          after_send w GET_PROBE_TEMP None)) /\
    (py_eq sensor (PyInt 0) = false -> py_eq sensor (PyInt 1) = false ->
     get_temperature d self sensor w
       = (Raised (PLDeviceCommandError
            "Invalid sensor provided. Use 0 for hotplate or 1 for external probe"),
          w)).
Proof.
  intros d self sensor w. unfold get_temperature.
  split; [| split].
  - intros ->. reflexivity.
  - intros H1. rewrite (py_eq_one_not_zero sensor H1), H1. reflexivity.
  - intros -> ->. reflexivity.
Qed.

Lemma get_temperature_by_sensor_witness :
  py_eq (PyInt 2) (PyInt 0) = false
  /\ py_eq (PyInt 2) (PyInt 1) = false
  /\ get_temperature (answering (Returned (PyFloat (45 # 2)))) bench_device
       (PyInt 2) idle_world
       = (Raised (PLDeviceCommandError
            "Invalid sensor provided. Use 0 for hotplate or 1 for external probe"),
          idle_world).
Proof.
  split; [reflexivity |]. split; [reflexivity |].
  apply (get_temperature_by_sensor (answering (Returned (PyFloat (45 # 2))))
           bench_device (PyInt 2) idle_world); reflexivity.
Defined.

(** *** Validation and encoding of [SET_TEMP] *)

Lemma within_int (c : Check) (x : Z) :
  within c (PyInt x) = (min c <=? x) && (x <=? max c).
Proof. unfold within; cbn [py_num]. now rewrite !Qle_bool_inject_Z. Qed.

Lemma validate_SET_TEMP (x : Z) :
  validate SET_TEMP (PyInt x) =
  if (20 <=? x) && (x <=? 300) then Returned tt else Raised InvalidArgument.
Proof.
  unfold validate; cbn [SET_TEMP type check has_type].
  now rewrite within_int.
Qed.

(** C6: the check of a [SET_TEMP] argument accepts every integer [x] with
    [20 <= x <= 300] and fails with [InvalidArgument] for every [x] below
    [20] or above [300]; in the dispatcher such an argument is rejected with
    no frame written to the connection. *)
Theorem SET_TEMP_bounds :
  forall x : Z,
    (20 <= x <= 300 -> validate SET_TEMP (PyInt x) = Returned tt) /\
    (x < 20 \/ 300 < x ->
     validate SET_TEMP (PyInt x) = Raised InvalidArgument /\
     forall interpreter_str write read_until decode self wire,
       dispatch interpreter_str write read_until decode self SET_TEMP
         (Some (PyInt x)) wire
       = (Raised InvalidArgument, wire)).
Proof.
  intros x. split.
  - intros [Hlo Hhi]. rewrite validate_SET_TEMP.
    destruct (Z.leb_spec 20 x); [| lia].
    destruct (Z.leb_spec x 300); [reflexivity | lia].
  - intros Hout.
    assert (validate SET_TEMP (PyInt x) = Raised InvalidArgument) as Hv.
    { rewrite validate_SET_TEMP.
      destruct (Z.leb_spec 20 x); destruct (Z.leb_spec x 300);
        cbn [andb]; solve [reflexivity | lia]. }
    split; [exact Hv |].
    intros. unfold dispatch. now rewrite Hv.
Qed.

Lemma SET_TEMP_bounds_witness :
  (20 <= 20 <= 300 /\ validate SET_TEMP (PyInt 20) = Returned tt)
  /\ (20 <= 300 <= 300 /\ validate SET_TEMP (PyInt 300) = Returned tt)
  /\ ((19 < 20 \/ 300 < 19)
      /\ validate SET_TEMP (PyInt 19) = Raised InvalidArgument)
  /\ ((301 < 20 \/ 300 < 301)
      /\ validate SET_TEMP (PyInt 301) = Raised InvalidArgument).
Proof.
  split; [split; [lia | apply (proj1 (SET_TEMP_bounds 20)); lia] |].
  split; [split; [lia | apply (proj1 (SET_TEMP_bounds 300)); lia] |].
  split; [split; [left; lia | apply (proj2 (SET_TEMP_bounds 19)); left; lia] |].
  split; [right; lia | apply (proj2 (SET_TEMP_bounds 301)); right; lia].
Defined.

(** C7: with the framing set by the constructor (argument delimiter [" "],
    command terminator carriage return and line feed), encoding [SET_TEMP]
    with argument [150] gives the name ["OUT_SP_1"], a space, ["150"] and the
    terminator. *)
Theorem encode_SET_TEMP_150 :
  forall interpreter_str device_name connection_mode address port
         in_simulation,
    let self := init device_name connection_mode address port in_simulation in
    args_delimiter self = " " /\
    command_terminator self = String "013" (String "010" EmptyString) /\
    name SET_TEMP = "OUT_SP_1" /\
    encode interpreter_str self SET_TEMP (Some (PyInt 150))
      = ("OUT_SP_1 150" ++ String "013" (String "010" EmptyString))%string.
Proof. intros. repeat split. Qed.

(** *** Simulation mode *)

(** C8: in simulation mode every call to [is_connected] returns the default
    name ["Radleys Carousel Connect"], a true value, whatever the dispatcher
    would answer, and leaves the world as it was: no call to [send], no log
    record. *)
Theorem is_connected_in_simulation :
  forall (d : Dispatcher) (self : Device) (w : World),
    simulation self = true ->
    is_connected d self w = (Returned (PyStr "Radleys Carousel Connect"), w)
    /\ py_truthy (PyStr "Radleys Carousel Connect") = true.
Proof.
  intros d self w Hsim. unfold is_connected, in_simulation_device_returns.
  rewrite Hsim. split; reflexivity.
Qed.

Lemma is_connected_in_simulation_witness :
  simulation simulated_device = true
  /\ is_connected (answering (Raised PLConnectionError)) simulated_device
       idle_world
       = (Returned (PyStr "Radleys Carousel Connect"), idle_world).
Proof.
  split; [reflexivity |].
  apply (is_connected_in_simulation (answering (Raised PLConnectionError))
           simulated_device idle_world).
  reflexivity.
Defined.

(** *** Setters and getters that drop a value *)

(** C9: [get_temperature_safety_delta] sends [GET_SET_TEMP_SAFETY_DELTA] and
    never returns the reply: whatever decoded value [send] returns, the
    method returns [None]; no value other than [None] is ever returned. *)
Theorem get_temperature_safety_delta_returns_None :
  forall (d : Dispatcher) (self : Device) (w : World),
    snd (get_temperature_safety_delta d self w)
      = after_send w GET_SET_TEMP_SAFETY_DELTA None /\
    (forall v, d (calls w) GET_SET_TEMP_SAFETY_DELTA None = Returned v ->
       fst (get_temperature_safety_delta d self w) = Returned PyNone) /\
    (forall v, fst (get_temperature_safety_delta d self w) = Returned v ->
       v = PyNone).
Proof.
  intros d self w. unfold get_temperature_safety_delta. rewrite bind_send.
  destruct (d (calls w) GET_SET_TEMP_SAFETY_DELTA None) as [v0|e];
    cbn [fst snd ret].
  - split; [reflexivity |]. split; [reflexivity |].
    intros v Hv. now inversion Hv.
  - split; [reflexivity |]. split; intros v Hv; discriminate Hv.
Qed.

Lemma get_temperature_safety_delta_returns_None_witness :
  answering (Returned (PyFloat (5 # 1))) (calls idle_world)
    GET_SET_TEMP_SAFETY_DELTA None = Returned (PyFloat (5 # 1))
  /\ fst (get_temperature_safety_delta (answering (Returned (PyFloat (5 # 1))))
            bench_device idle_world)
       = Returned PyNone.
Proof.
  split; [reflexivity |].
  apply (proj1 (proj2 (get_temperature_safety_delta_returns_None
                         (answering (Returned (PyFloat (5 # 1))))
                         bench_device idle_world))
           (PyFloat (5 # 1))).
  reflexivity.
Defined.

(** C10: [set_temperature] does not look at [sensor]: for every temperature
    and any two sensor values the two calls send the same [SET_TEMP] command
    with the temperature as its argument and end alike. *)
Theorem set_temperature_ignores_sensor :
  forall (d : Dispatcher) (self : Device) (t s1 s2 : PyVal) (w : World),
    set_temperature d self t s1 w = set_temperature d self t s2 w
    /\ snd (set_temperature d self t s1 w) = after_send w SET_TEMP (Some t)
    /\ fst (set_temperature d self t s1 w)
       = match d (calls w) SET_TEMP (Some t) with
         | Returned _ => Returned PyNone
         | Raised e => Raised e
         end.
Proof.
  intros d self t s1 s2 w. split; [reflexivity |].
  unfold set_temperature. rewrite bind_send.
  destruct (d (calls w) SET_TEMP (Some t)); split; reflexivity.
Qed.

(** ** Further properties of the driver *)

(** *** What a method adds to the world *)

Section TracedRules.

Context {P : Call -> Prop}.

Lemma Traced_ret {A} (a : A) : Traced P 0 0 (ret a).
Proof.
  intros w. exists [], []. cbn. rewrite !app_nil_r. auto.
Qed.

Lemma Traced_raise {A} (e : PyExn) : Traced P 0 0 (@raise A e).
Proof.
  intros w. exists [], []. cbn. rewrite !app_nil_r. auto.
Qed.

Lemma Traced_lift {A} (r : Result A) : Traced P 0 0 (lift r).
Proof.
  intros w. exists [], []. cbn. rewrite !app_nil_r. auto.
Qed.

Lemma Traced_log (l : Level) (msg : string) : Traced P 0 1 (logger_log l msg).
Proof.
  intros w. exists [], [(l, msg)]. cbn. rewrite !app_nil_r. auto.
Qed.

Lemma Traced_send (d : Dispatcher) self cmd value :
  P {| sent_cmd := cmd; sent_value := value |} ->
  Traced P 1 0 (send d self cmd value).
Proof.
  intros HP w. exists [{| sent_cmd := cmd; sent_value := value |}], [].
  cbn. rewrite !app_nil_r. repeat split; auto.
Qed.

Lemma Traced_weaken {A} (n m n' m' : nat) (c : M A) :
  Traced P n m c -> (n <= n')%nat -> (m <= m')%nat -> Traced P n' m' c.
Proof.
  intros Hc Hn Hm w. destruct (Hc w) as (cs & js & H1 & H2 & H3 & H4 & H5).
  exists cs, js. repeat split; auto; lia.
Qed.

Lemma Traced_if {A} (n1 m1 n2 m2 : nat) (b : bool) (c1 c2 : M A) :
  Traced P n1 m1 c1 -> Traced P n2 m2 c2 ->
  Traced P (Nat.max n1 n2) (Nat.max m1 m2) (if b then c1 else c2).
Proof.
  intros H1 H2. destruct b.
  - apply (Traced_weaken n1 m1); [assumption | lia | lia].
  - apply (Traced_weaken n2 m2); [assumption | lia | lia].
Qed.

Lemma Traced_bind {A B} (n1 m1 n2 m2 : nat) (c : M A) (k : A -> M B) :
  Traced P n1 m1 c -> (forall a, Traced P n2 m2 (k a)) ->
  Traced P (n1 + n2) (m1 + m2) (bind c k).
Proof.
  intros Hc Hk w. unfold bind.
  destruct (Hc w) as (cs & js & H1 & H2 & H3 & H4 & H5).
  destruct (c w) as [[a|e] w1]; cbn [snd] in *.
  - destruct (Hk a w1) as (cs' & js' & K1 & K2 & K3 & K4 & K5).
    exists (cs ++ cs')%list, (js ++ js')%list.
    rewrite K1, K2, H1, H2, !app_assoc, !length_app.
    repeat split; [lia | lia |]. apply Forall_app; auto.
  - exists cs, js. repeat split; auto; lia.
Qed.

Lemma Traced_try_except {A} (n1 m1 n2 m2 : nat) (body handler : M A)
    (catches : PyExn -> bool) :
  Traced P n1 m1 body -> Traced P n2 m2 handler ->
  Traced P (n1 + n2) (m1 + m2) (try_except body catches handler).
Proof.
  intros Hb Hh w. unfold try_except.
  destruct (Hb w) as (cs & js & H1 & H2 & H3 & H4 & H5).
  destruct (body w) as [[a|e] w1]; cbn [snd] in *.
  - exists cs, js. repeat split; auto; lia.
  - destruct (catches e); cbn [snd].
    + destruct (Hh w1) as (cs' & js' & K1 & K2 & K3 & K4 & K5).
      exists (cs ++ cs')%list, (js ++ js')%list.
      rewrite K1, K2, H1, H2, !app_assoc, !length_app.
      repeat split; [lia | lia |]. apply Forall_app; auto.
    + exists cs, js. repeat split; auto; lia.
Qed.

End TracedRules.

Ltac traced_step :=
  first [ apply Traced_ret | apply Traced_raise | apply Traced_lift
        | apply Traced_log | apply Traced_send
        | eapply Traced_if | eapply Traced_bind | eapply Traced_try_except
        | intro ].

Ltac well_formed :=
  split;
  [ cbn; repeat first [left; reflexivity | right]
  | cbn; intros Hvalue; first [congruence | split; discriminate] ].

Lemma perform_Traced (d : Dispatcher) (self : Device) (op : Operation) :
  Traced well_formed_call 1 1 (perform d self op).
Proof.
  destruct op; cbn [perform];
    unfold is_connected, in_simulation_device_returns, is_connected_body,
      is_idle, get_status, check_errors, clear_errors,
      start_temperature_regulation, stop_temperature_regulation,
      start_stirring, stop_stirring, set_speed, get_speed, get_speed_setpoint,
      set_temperature, get_temperature_setpoint, get_temperature,
      get_temperature_safety_delta, get_sensor_type, set_reset_mode,
      get_reset_mode, set_heat_mode, get_heat_mode, reset,
      set_connection_check_on, set_connection_check_off,
      logger_info, logger_error;
    (eapply Traced_weaken;
     [ repeat traced_step;
       try match goal with
           | f : Flow |- _ => destruct f; apply Traced_ret
           end;
       try well_formed
     | cbn; lia | cbn; lia ]).
Qed.

(** X1: one call of any method adds at most one call to [send] and at most
    one log record, and leaves the earlier calls and records in place. *)
Theorem operations_extend_history :
  forall (d : Dispatcher) (self : Device) (op : Operation) (w : World),
  exists cs js,
    calls (snd (perform d self op w)) = (calls w ++ cs)%list /\
    journal (snd (perform d self op w)) = (journal w ++ js)%list /\
    (List.length cs <= 1)%nat /\ (List.length js <= 1)%nat.
Proof.
  intros d self op w.
  destruct (perform_Traced d self op w) as (cs & js & H1 & H2 & H3 & H4 & _).
  exists cs, js. auto.
Qed.

(** X2: a call found in the world after a method ran was there before or is
    well formed: its command is one of the table, and it carries a value only
    if the command declares a type and bounds for it. *)
Theorem operations_send_well_formed_calls :
  forall (d : Dispatcher) (self : Device) (op : Operation) (w : World)
         (c : Call),
    In c (calls (snd (perform d self op w))) ->
    In c (calls w) \/ well_formed_call c.
Proof.
  intros d self op w c Hin.
  destruct (perform_Traced d self op w) as (cs & js & H1 & _ & _ & _ & HP).
  rewrite H1 in Hin. apply in_app_or in Hin. destruct Hin as [Hold|Hnew].
  - left; exact Hold.
  - right. rewrite Forall_forall in HP. now apply HP.
Qed.

Lemma operations_send_well_formed_calls_witness :
  In {| sent_cmd := SET_SPEED; sent_value := Some (PyInt 5000) |}
     (calls (snd (perform (answering (Returned PyNone)) bench_device
                    (Set_speed (PyInt 5000)) idle_world)))
  /\ (In {| sent_cmd := SET_SPEED; sent_value := Some (PyInt 5000) |}
         (calls idle_world)
      \/ well_formed_call
           {| sent_cmd := SET_SPEED; sent_value := Some (PyInt 5000) |}).
Proof.
  split; [left; reflexivity |].
  apply (operations_send_well_formed_calls (answering (Returned PyNone))
           bench_device (Set_speed (PyInt 5000)) idle_world).
  left; reflexivity.
Defined.

Lemma run_all_Traced (d : Dispatcher) (self : Device) (ops : list Operation) :
  Traced well_formed_call (List.length ops) (List.length ops)
    (run_all d self ops).
Proof.
  induction ops as [|op rest IH]; cbn [run_all List.length].
  - apply Traced_ret.
  - eapply Traced_weaken.
    + eapply Traced_bind; [apply perform_Traced |].
      intros v. eapply Traced_bind; [exact IH |].
      intros vs. apply Traced_ret.
    + lia.
    + lia.
Qed.

Lemma run_all_results (d : Dispatcher) (self : Device) :
  forall (ops : list Operation) (w : World) (vs : list PyVal),
    fst (run_all d self ops w) = Returned vs ->
    List.length vs = List.length ops.
Proof.
  induction ops as [|op rest IH]; intros w vs; cbn [run_all].
  - cbn. intros H. now inversion H.
  - unfold bind at 1. destruct (perform d self op w) as [[v|e] w1].
    + unfold bind at 1. specialize (IH w1).
      destruct (run_all d self rest w1) as [[vs'|e] w2]; cbn.
      * intros H. inversion H. cbn. now rewrite (IH vs' eq_refl).
      * discriminate.
    + cbn. discriminate.
Qed.

(** X3: a caller that invokes [n] methods in a row adds at most [n] calls to
    [send] and at most [n] log records to what was there; when it ends
    without an exception it has one result for each method. *)
Theorem run_all_bounded :
  forall (d : Dispatcher) (self : Device) (ops : list Operation) (w : World),
    (exists cs js,
       calls (snd (run_all d self ops w)) = (calls w ++ cs)%list /\
       journal (snd (run_all d self ops w)) = (journal w ++ js)%list /\
       (List.length cs <= List.length ops)%nat /\
       (List.length js <= List.length ops)%nat) /\
    (forall vs, fst (run_all d self ops w) = Returned vs ->
       List.length vs = List.length ops).
Proof.
  intros d self ops w. split.
  - destruct (run_all_Traced d self ops w) as (cs & js & H1 & H2 & H3 & H4 & _).
    exists cs, js. auto.
  - intros vs. apply run_all_results.
Qed.

Lemma run_all_bounded_witness :
  fst (run_all (answering (Returned (PyFloat (300 # 1)))) bench_device
         [Start_stirring; Get_speed; Stop_stirring] idle_world)
    = Returned [PyNone; PyFloat (300 # 1); PyNone]
  /\ List.length [PyNone; PyFloat (300 # 1); PyNone]
     = List.length [Start_stirring; Get_speed; Stop_stirring].
Proof.
  split; [reflexivity |].
  apply (proj2 (run_all_bounded (answering (Returned (PyFloat (300 # 1))))
                  bench_device [Start_stirring; Get_speed; Stop_stirring]
                  idle_world)
           [PyNone; PyFloat (300 # 1); PyNone]).
  reflexivity.
Defined.

(** *** A failing transport *)

Ltac unfold_methods :=
  unfold check_errors, clear_errors,
    start_temperature_regulation, stop_temperature_regulation,
    start_stirring, stop_stirring, set_speed, get_speed, get_speed_setpoint,
    set_temperature, get_temperature_setpoint, get_temperature,
    get_temperature_safety_delta, get_sensor_type, set_reset_mode,
    get_reset_mode, set_heat_mode, get_heat_mode, reset,
    set_connection_check_on, set_connection_check_off.



(** *** Logging of the start and stop methods *)

(** X5: [start_temperature_regulation], [start_stirring] and [stop_stirring]
    write their log record exactly when [send] returned: after a failed
    [send] the log is as it was. [stop_temperature_regulation] never writes a
    record. *)
Theorem start_stop_log_after_success :
  forall (d : Dispatcher) (self : Device) (w : World),
    journal (snd (start_temperature_regulation d self w))
      = match d (calls w) START_HEAT None with
        | Returned _ => (journal w ++ [(INFO, "Started heating")])%list
        | Raised _ => journal w
        end /\
    journal (snd (start_stirring d self w))
      = match d (calls w) START_STIR None with
        | Returned _ => (journal w ++ [(INFO, "Started stirring")])%list
        | Raised _ => journal w
        end /\
    journal (snd (stop_stirring d self w))
      = match d (calls w) STOP_STIR None with
        | Returned _ => (journal w ++ [(INFO, "Stopped stirring")])%list
        | Raised _ => journal w
        end /\
    journal (snd (stop_temperature_regulation d self w)) = journal w.
Proof.
  intros d self w.
  unfold start_temperature_regulation, start_stirring, stop_stirring,
    stop_temperature_regulation.
  rewrite !bind_send.
  destruct (d (calls w) START_HEAT None), (d (calls w) START_STIR None),
    (d (calls w) STOP_STIR None), (d (calls w) STOP_HEAT None);
    repeat split; reflexivity.
Qed.

(** *** Decoding of mode and sensor replies *)

(** X6: [get_sensor_type] answers ["HOTPLATE (0)"] for the integer reply [0]
    and ["PROBE (1)"] for every other integer reply, whatever its value. *)
Theorem get_sensor_type_answers :
  forall (d : Dispatcher) (self : Device) (w : World) (r : Z),
    d (calls w) QUERY_TEMP_SENSOR_TYPE None = Returned (PyInt r) ->
    (r = 0 ->
     get_sensor_type d self w
       = (Returned (PyStr "HOTPLATE (0)"),
          after_send w QUERY_TEMP_SENSOR_TYPE None)) /\
    (r <> 0 ->
     get_sensor_type d self w
       = (Returned (PyStr "PROBE (1)"),
          after_send w QUERY_TEMP_SENSOR_TYPE None)).
Proof.
  intros d self w r Hd. unfold get_sensor_type.
  rewrite bind_send, Hd, py_eq_int.
  split; intros Hr.
  - subst r. reflexivity.
  - destruct (Z.eqb_spec r 0); [contradiction | reflexivity].
Qed.

Lemma get_sensor_type_answers_witness :
  answering (Returned (PyInt 7)) (calls idle_world) QUERY_TEMP_SENSOR_TYPE None
    = Returned (PyInt 7)
  /\ 7 <> 0
  /\ get_sensor_type (answering (Returned (PyInt 7))) bench_device idle_world
       = (Returned (PyStr "PROBE (1)"),
          after_send idle_world QUERY_TEMP_SENSOR_TYPE None).
Proof.
  split; [reflexivity |]. split; [discriminate |].
  apply (proj2 (get_sensor_type_answers (answering (Returned (PyInt 7)))
                  bench_device idle_world 7 eq_refl)).
  discriminate.
Defined.

(** Lookup of an integer in a table with the keys [0] and [1]. *)
Lemma two_key_lookup (off on : PyVal) (r : Z) :
  py_getitem [(PyInt 0, off); (PyInt 1, on)] (PyInt r) =
  if r =? 0 then Returned off
  else if r =? 1 then Returned on
  else Raised (KeyError (PyInt r)).
Proof.
  cbn [py_getitem]. rewrite !py_eq_int, (Z.eqb_sym 0 r), (Z.eqb_sym 1 r).
  reflexivity.
Qed.

(** X7: [get_reset_mode] returns ["ALL OFF"] for the integer reply [0] and
    ["ALL ON"] for [1]; for every other integer reply it raises [KeyError]
    with the reply as the missing key. *)
Theorem get_reset_mode_lookup :
  forall (d : Dispatcher) (self : Device) (w : World) (r : Z),
    d (calls w) QUERY_RESET_MODE None = Returned (PyInt r) ->
    snd (get_reset_mode d self w) = after_send w QUERY_RESET_MODE None /\
    (r = 0 -> fst (get_reset_mode d self w) = Returned (PyStr "ALL OFF")) /\
    (r = 1 -> fst (get_reset_mode d self w) = Returned (PyStr "ALL ON")) /\
    (r <> 0 -> r <> 1 ->
     fst (get_reset_mode d self w) = Raised (KeyError (PyInt r))).
Proof.
  intros d self w r Hd. unfold get_reset_mode, RESET_MODE.
  rewrite bind_send, Hd. unfold lift; cbn [fst snd]. rewrite two_key_lookup.
  split; [reflexivity |].
  split; [intros ->; reflexivity |].
  split; [intros ->; reflexivity |].
  intros H0 H1.
  destruct (Z.eqb_spec r 0); [contradiction |].
  destruct (Z.eqb_spec r 1); [contradiction | reflexivity].
Qed.

Lemma get_reset_mode_lookup_witness :
  answering (Returned (PyInt 2)) (calls idle_world) QUERY_RESET_MODE None
    = Returned (PyInt 2)
  /\ 2 <> 0 /\ 2 <> 1
  /\ fst (get_reset_mode (answering (Returned (PyInt 2))) bench_device
            idle_world)
       = Raised (KeyError (PyInt 2)).
Proof.
  split; [reflexivity |]. split; [discriminate |]. split; [discriminate |].
  apply (get_reset_mode_lookup (answering (Returned (PyInt 2))) bench_device
           idle_world 2 eq_refl); discriminate.
Defined.

(** X8: [get_heat_mode] returns ["PRECISE"] for the integer reply [0] and
    ["FAST"] for [1]; for every other integer reply it raises [KeyError]
    with the reply as the missing key. *)
Theorem get_heat_mode_lookup :
  forall (d : Dispatcher) (self : Device) (w : World) (r : Z),
    d (calls w) QUERY_TEMP_MODE None = Returned (PyInt r) ->
    snd (get_heat_mode d self w) = after_send w QUERY_TEMP_MODE None /\
    (r = 0 -> fst (get_heat_mode d self w) = Returned (PyStr "PRECISE")) /\
    (r = 1 -> fst (get_heat_mode d self w) = Returned (PyStr "FAST")) /\
    (r <> 0 -> r <> 1 ->
     fst (get_heat_mode d self w) = Raised (KeyError (PyInt r))).
Proof.
  intros d self w r Hd. unfold get_heat_mode, TEMP_MODE.
  rewrite bind_send, Hd. unfold lift; cbn [fst snd]. rewrite two_key_lookup.
  split; [reflexivity |].
  split; [intros ->; reflexivity |].
  split; [intros ->; reflexivity |].
  intros H0 H1.
  destruct (Z.eqb_spec r 0); [contradiction |].
  destruct (Z.eqb_spec r 1); [contradiction | reflexivity].
Qed.

Lemma get_heat_mode_lookup_witness :
  answering (Returned (PyInt (-1))) (calls idle_world) QUERY_TEMP_MODE None
    = Returned (PyInt (-1))
  /\ -1 <> 0 /\ -1 <> 1
  /\ fst (get_heat_mode (answering (Returned (PyInt (-1)))) bench_device
            idle_world)
       = Raised (KeyError (PyInt (-1))).
Proof.
  split; [reflexivity |]. split; [discriminate |]. split; [discriminate |].
  apply (get_heat_mode_lookup (answering (Returned (PyInt (-1)))) bench_device
           idle_world (-1) eq_refl); discriminate.
Defined.

(** *** Values that are not numbers *)

Lemma py_eq_non_number (v : PyVal) (k : Z) :
  py_num v = None -> py_eq v (PyInt k) = false.
Proof. destruct v; cbn; intros H; try discriminate H; reflexivity. Qed.

Lemma py_lt_non_number (v : PyVal) (k : Z) :
  py_num v = None -> py_lt v (PyInt k) = Raised TypeError.
Proof. destruct v; cbn; intros H; try discriminate H; reflexivity. Qed.

(** X9: a status reply that is not a number ([None], a string) is not
    decoded: the ordering comparisons of [get_status] and of [is_connected]
    raise [TypeError], which neither method handles. *)
Theorem status_reply_not_a_number :
  forall (d : Dispatcher) (self : Device) (w : World) (v : PyVal),
    d (calls w) QUERY_STATUS None = Returned v ->
    py_num v = None ->
    get_status d self w = (Raised TypeError, after_send w QUERY_STATUS None) /\
    (simulation self = false ->
     is_connected d self w
       = (Raised TypeError, after_send w QUERY_STATUS None)).
Proof.
  intros d self w v Hd Hv. split.
  - unfold get_status. rewrite bind_send, Hd.
    unfold bind, lift, py_gt. now rewrite py_lt_non_number.
  - intros Hsim. rewrite (is_connected_real d self w Hsim), is_connected_body_eq.
    cbn zeta. rewrite Hd, py_eq_non_number, py_lt_non_number by assumption.
    reflexivity.
Qed.

Lemma status_reply_not_a_number_witness :
  answering (Returned (PyStr "STATUS 1")) (calls idle_world) QUERY_STATUS None
    = Returned (PyStr "STATUS 1")
  /\ py_num (PyStr "STATUS 1") = None
  /\ get_status (answering (Returned (PyStr "STATUS 1"))) bench_device
       idle_world
       = (Raised TypeError, after_send idle_world QUERY_STATUS None).
Proof.
  split; [reflexivity |]. split; [reflexivity |].
  apply (status_reply_not_a_number (answering (Returned (PyStr "STATUS 1")))
           bench_device idle_world (PyStr "STATUS 1")); reflexivity.
Defined.

(** X10: [get_temperature] does not coerce its selector: a [sensor] that is
    not a number ([None], the string ["0"]) is rejected with
    [PLDeviceCommandError] and nothing is sent. *)
Theorem get_temperature_rejects_non_number :
  forall (d : Dispatcher) (self : Device) (sensor : PyVal) (w : World),
    py_num sensor = None ->
    get_temperature d self sensor w
      = (Raised (PLDeviceCommandError
           "Invalid sensor provided. Use 0 for hotplate or 1 for external probe"),
         w).
Proof.
  intros d self sensor w Hs. unfold get_temperature.
  now rewrite !py_eq_non_number by assumption.
Qed.

Lemma get_temperature_rejects_non_number_witness :
  py_num (PyStr "0") = None
  /\ get_temperature (answering (Returned (PyFloat (45 # 2)))) bench_device
       (PyStr "0") idle_world
       = (Raised (PLDeviceCommandError
            "Invalid sensor provided. Use 0 for hotplate or 1 for external probe"),
          idle_world).
Proof.
  split; [reflexivity |].
  apply (get_temperature_rejects_non_number
           (answering (Returned (PyFloat (45 # 2)))) bench_device (PyStr "0")
           idle_world).
  reflexivity.
Defined.

(** *** Methods without a result *)

(** X11: a method without a [return] statement never hands the device's
    reply to its caller: whenever it returns, it returns [None]. *)
Theorem procedures_return_None :
  forall (d : Dispatcher) (self : Device) (op : Operation) (w : World)
         (v : PyVal),
    is_procedure op = true ->
    fst (perform d self op w) = Returned v ->
    v = PyNone.
Proof.
  intros d self op w v Hproc.
  destruct op; try discriminate Hproc; cbn [perform]; unfold_methods;
    try (cbn; intros H; now inversion H);
    rewrite bind_send;
    match goal with
    | |- context [d (calls w) ?c ?a] => destruct (d (calls w) c a)
    end;
    cbn; intros H; solve [now inversion H | discriminate H].
Qed.

Lemma procedures_return_None_witness :
  is_procedure (Set_heat_mode (PyInt 1)) = true
  /\ fst (perform (answering (Returned (PyStr "OUT_MODE_4 1"))) bench_device
            (Set_heat_mode (PyInt 1)) idle_world) = Returned PyNone
  /\ PyNone = PyNone.
Proof.
  split; [reflexivity |]. split; [reflexivity |].
  apply (procedures_return_None (answering (Returned (PyStr "OUT_MODE_4 1")))
           bench_device (Set_heat_mode (PyInt 1)) idle_world PyNone);
    reflexivity.
Defined.

(** *** The command table *)

(** X12: no two command definitions share a name on the wire, and every
    definition with bounds declares a type and has its lower bound at or
    below the upper one. *)
Theorem command_table_well_formed :
  NoDup (map name all_commands) /\
  Forall (fun c => match check c with
                   | Some k => min k <= max k /\ type c <> None
                   | None => True
                   end) all_commands.
Proof.
  split.
  - cbn. repeat (constructor; [cbn; intuition discriminate |]). constructor.
  - unfold all_commands.
    repeat (constructor;
            [cbn; first [exact I | split; [lia | discriminate]] |]).
    constructor.
Qed.

(** *** Initialisation *)

(** X13: [initialize_device] sends the handshake [PA_NEW] only after the
    connection opened, and logs ["Device initialised"] only after the
    handshake returned: a failure to open raises with nothing sent, a failed
    handshake raises with nothing logged. *)
Theorem initialize_device_steps :
  forall (d : Dispatcher) (opened : Result unit) (self : Device) (w : World),
    (forall e, opened = Raised e ->
       initialize_device d opened self w = (Raised e, w)) /\
    (forall u e, opened = Returned u ->
       d (calls w) PROTOCOL_NEW None = Raised e ->
       initialize_device d opened self w
         = (Raised e, after_send w PROTOCOL_NEW None)) /\
    (forall u v, opened = Returned u ->
       d (calls w) PROTOCOL_NEW None = Returned v ->
       initialize_device d opened self w
         = (Returned PyNone,
            after_log (after_send w PROTOCOL_NEW None) INFO
              "Device initialised")).
Proof.
  intros d opened self w. unfold initialize_device.
  split; [| split].
  - intros e ->. reflexivity.
  - intros u e -> Hd. unfold bind at 1, lift. now rewrite bind_send, Hd.
  - intros u v -> Hd. unfold bind at 1, lift. now rewrite bind_send, Hd.
Qed.

Lemma initialize_device_steps_witness :
  Raised PLConnectionError = @Raised unit PLConnectionError
  /\ initialize_device (answering (Returned (PyStr "PA_NEW")))
       (Raised PLConnectionError) bench_device idle_world
       = (Raised PLConnectionError, idle_world).
Proof.
  split; [reflexivity |].
  apply (proj1 (initialize_device_steps (answering (Returned (PyStr "PA_NEW")))
                  (Raised PLConnectionError) bench_device idle_world)
           PLConnectionError).
  reflexivity.
Defined.

(** *** Polling *)

(** X14: status is never cached: polling [get_status] [n] times on a device
    that answers every STATUS query with an integer sends [n] STATUS
    queries, logs nothing and yields [n] results. *)
Theorem polling_sends_every_time :
  forall (d : Dispatcher) (self : Device) (n : nat) (w : World),
    (forall h, exists r, d h QUERY_STATUS None = Returned (PyInt r)) ->
    exists vs,
      run_all d self (repeat Get_status n) w
        = (Returned vs,
           {| calls := (calls w
                        ++ repeat {| sent_cmd := QUERY_STATUS;
                                     sent_value := None |} n)%list;
              journal := journal w |})
      /\ List.length vs = n.
Proof.
  intros d self n. induction n as [|n IH]; intros w Hd.
  - exists []. cbn. rewrite app_nil_r. destruct w; auto.
  - destruct (Hd (calls w)) as [r Hr].
    destruct (IH (after_send w QUERY_STATUS None) Hd) as (vs & Hrun & Hlen).
    cbn [repeat run_all perform]. unfold bind at 1.
    rewrite (get_status_int d self w r Hr).
    unfold bind at 1.
    destruct ((r <? 3) && (-2 <? r)) eqn:Hin; eexists.
    + apply andb_prop in Hin. destruct Hin as [H3 H2].
      apply Z.ltb_lt in H3. apply Z.ltb_lt in H2.
      rewrite STATUS_lookup by lia. rewrite Hrun. cbn [ret].
      split.
      * cbn [after_send calls journal]. rewrite <- app_assoc. reflexivity.
      * cbn. now rewrite Hlen.
    + rewrite Hrun. cbn [ret].
      split.
      * cbn [after_send calls journal]. rewrite <- app_assoc. reflexivity.
      * cbn. now rewrite Hlen.
Qed.

Lemma polling_sends_every_time_witness :
  (forall h, exists r,
     answering (Returned (PyInt 0)) h QUERY_STATUS None = Returned (PyInt r))
  /\ exists vs,
       run_all (answering (Returned (PyInt 0))) bench_device
         (repeat Get_status 3) idle_world
         = (Returned vs,
            {| calls := (calls idle_world
                         ++ repeat {| sent_cmd := QUERY_STATUS;
                                      sent_value := None |} 3)%list;
               journal := journal idle_world |})
       /\ List.length vs = 3%nat.
Proof.
  split; [intros h; exists 0; reflexivity |].
  apply (polling_sends_every_time (answering (Returned (PyInt 0)))
           bench_device 3 idle_world).
  intros h; exists 0; reflexivity.
Defined.

(** *** [is_connected] against [get_status] *)

(** X15: on the same integer status reply, [is_connected] answers [True]
    while [get_status] reports ["ERROR"] exactly for the replies [3] and
    above: a reply beyond the status table counts as connected. *)
Theorem connected_with_error_status :
  forall (d : Dispatcher) (self : Device) (w w' : World) (r : Z),
    simulation self = false ->
    d (calls w) QUERY_STATUS None = Returned (PyInt r) ->
    d (calls w') QUERY_STATUS None = Returned (PyInt r) ->
    (fst (is_connected d self w) = Returned (PyBool true) /\
     fst (get_status d self w') = Returned (PyStr "ERROR"))
    <-> 3 <= r.
Proof.
  intros d self w w' r Hsim Hw Hw'.
  rewrite (is_connected_real d self w Hsim), is_connected_body_eq.
  cbn zeta. rewrite Hw, py_eq_int, py_lt_int.
  rewrite (get_status_int d self w' r Hw'). cbn [fst].
  destruct (Z.eqb_spec r (-1)) as [->|Hne]; cbn [fst].
  - split; [intros [Hc _]; discriminate Hc | lia].
  - destruct (Z.ltb_spec r (-1)) as [Hlow|Hlow]; cbn [fst].
    + split; [intros [Hc _]; discriminate Hc | lia].
    + destruct (Z.ltb_spec r 3) as [Hup|Hup]; cbn [andb].
      * destruct (Z.ltb_spec (-2) r); [| lia].
        rewrite STATUS_lookup by lia.
        split; [| lia]. intros [_ Hs].
        assert (r = 0 \/ r = 1 \/ r = 2) as [-> | [-> | ->]] by lia;
          discriminate Hs.
      * split; [lia | intros _; split; reflexivity].
Qed.

Lemma connected_with_error_status_witness :
  simulation bench_device = false
  /\ answering (Returned (PyInt 5)) (calls idle_world) QUERY_STATUS None
       = Returned (PyInt 5)
  /\ 3 <= 5
  /\ fst (is_connected (answering (Returned (PyInt 5))) bench_device
            idle_world) = Returned (PyBool true)
  /\ fst (get_status (answering (Returned (PyInt 5))) bench_device idle_world)
       = Returned (PyStr "ERROR").
Proof.
  split; [reflexivity |]. split; [reflexivity |]. split; [lia |].
  apply (proj2 (connected_with_error_status (answering (Returned (PyInt 5)))
                  bench_device idle_world idle_world 5
                  eq_refl eq_refl eq_refl)).
  lia.
Defined.
